(** * azure_blobrepo_rpm.tooling.create_resources

    A shallow embedding of [create_resources.py]: the command line accepted
    by [argparse], the suffix check, and the straight-line provisioning
    sequence of [main] (resource group, initial Bicep deployment, function
    app bundle inside a [with] block, Event Grid deployment, advice).

    The modules [main] imports ([resource_group], [poetry],
    [bicep_deployment], [func_app], [advice]) are collaborators: each call
    into them is recorded in a trace, and what the call returns or raises is
    read from a [Collaborators] record that every theorem quantifies over. *)

From Stdlib Require Import ZArith.
From stdpp Require Import base option list strings gmap fin_maps.

Open Scope string_scope.

(** ** Values and exceptions *)

(** Scalar Python values that end up in a parameter dictionary or in the
    outputs of a deployment. *)
Inductive pyval :=
| VBool (b : bool)
| VInt (z : Z)
| VStr (s : string).

#[global] Instance pyval_eq_dec : EqDecision pyval.
Proof. solve_decision. Defined.

(** The exceptions a run of [main] can end in. [SystemExit] is what
    [argparse] raises through [parser.error] (status 2); [ValueError] is
    raised by the two [raise] statements of [main]; [KeyError] by a failed
    subscript [outputs[k]]; [CollaboratorError] stands for any exception
    leaving an imported function or method, with its diagnostic. *)
Inductive exn :=
| SystemExit (code : Z)
| ValueError (msg : string)
| KeyError (key : string)
| CollaboratorError (diag : string).

#[global] Instance exn_eq_dec : EqDecision exn.
Proof. solve_decision. Defined.

Inductive outcome (A : Type) :=
| Returns (a : A)
| Raises (e : exn).
Arguments Returns {A} a.
Arguments Raises {A} e.

(** What a collaborator answers to one call. *)
Inductive reply (A : Type) :=
| Done (a : A)
| Failed (diag : string).
Arguments Done {A} a.
Arguments Failed {A} diag.

(** ** The command line and [parser.parse_args()] *)

(** The values present on the command line: the positional
    [resource_group] and the four optional flags. *)
Record CommandLine := {
  arg_resource_group : string;
  opt_location : option string;
  opt_suffix : option string;
  opt_upload_directory : option string;
  opt_repo_type : option string
}.

(** The [argparse.Namespace] that [parse_args] returns. *)
Record Namespace := {
  resource_group : string;
  location : string;
  suffix : option string;
  upload_directory : string;
  repo_type : string
}.

(** [choices=["flat", "distribution"]] of [--repo-type]. *)
Definition choices : list string := ["flat"; "distribution"].

Definition in_choices (r : string) : bool :=
  existsb (String.eqb r) choices.

(** [parse_args] on such a command line: defaults are filled in for
    absent flags, and a [--repo-type] outside [choices] makes the parser
    exit with status 2. A command line that asks for the help text
    ([-h], which prints it and exits with status 0) or that the parser
    cannot split into these five values is not a [CommandLine]. *)
Definition parse_args (c : CommandLine) : outcome Namespace :=
  match opt_repo_type c with
  | Some r =>
      if in_choices r then
        Returns {| resource_group := arg_resource_group c;
                   location := default "eastus" (opt_location c);
                   suffix := opt_suffix c;
                   upload_directory := default "upload" (opt_upload_directory c);
                   repo_type := r |}
      else Raises (SystemExit 2)
  | None =>
      Returns {| resource_group := arg_resource_group c;
                 location := default "eastus" (opt_location c);
                 suffix := opt_suffix c;
                 upload_directory := default "upload" (opt_upload_directory c);
                 repo_type := "distribution" |}
  end.

(** ** Objects handed to the collaborators *)

Module BicepDeployment.
Record t := {
  deployment_name : string;
  resource_group_name : string;
  template_file : string;
  parameters : gmap string pyval;
  description : string
}.
End BicepDeployment.

Module FuncAppBundle.
Record t := {
  name : pyval;
  resource_group : string;
  storage_account : pyval;
  python_container : pyval;
  parameters : gmap string pyval
}.
End FuncAppBundle.

(** One call into an imported module, with its arguments. [Exit] carries
    the exception the [with] body ended in, if any. *)
Inductive call :=
| CreateRg (name location : string)
| ExtractRequirements (path : string)
| Create (d : BicepDeployment.t)
| Outputs (d : BicepDeployment.t)
| Enter (f : FuncAppBundle.t)
| Deploy (cm : FuncAppBundle.t)
| WaitForEventTrigger (cm : FuncAppBundle.t)
| Exit (f : FuncAppBundle.t) (exc : option exn)
| AdviceDistributionRepo (upload_directory : string)
    (package_container storage_account function_app_name base_url : pyval)
| AdviceFlatRepo (upload_directory : string)
    (package_container storage_account function_app_name base_url : pyval).

(** A trace entry: the call and, when it raised, its diagnostic. *)
Record event := Ev {
  ev_call : call;
  ev_failed : option string
}.

(** The imported functions and methods. [FuncAppBundle_exit] returns the
    truth value of [__exit__]'s result, which tells the [with] statement
    whether to swallow the body's exception. *)
Record Collaborators := {
  create_rg : string -> string -> reply unit;
  extract_requirements : string -> reply unit;
  BicepDeployment_create : BicepDeployment.t -> reply unit;
  BicepDeployment_outputs : BicepDeployment.t -> reply (gmap string pyval);
  FuncAppBundle_enter : FuncAppBundle.t -> reply FuncAppBundle.t;
  FuncAppBundle_deploy : FuncAppBundle.t -> reply unit;
  FuncAppBundle_wait_for_event_trigger : FuncAppBundle.t -> reply unit;
  FuncAppBundle_exit : FuncAppBundle.t -> option exn -> reply bool;
  advice_distribution_repo :
    string -> pyval -> pyval -> pyval -> pyval -> reply unit;
  advice_flat_repo :
    string -> pyval -> pyval -> pyval -> pyval -> reply unit
}.

(** ** Runs: a trace of calls and how the code ended *)

Definition Run (A : Type) : Type := (list event * outcome A)%type.

Definition ret {A} (a : A) : Run A := ([], Returns a).

Definition raise {A} (e : exn) : Run A := ([], Raises e).

Definition bind {A B} (m : Run A) (k : A -> Run B) : Run B :=
  match m with
  | (t, Returns a) => match k a with (t', r) => ((t ++ t')%list, r) end
  | (t, Raises e) => (t, Raises e)
  end.

Declare Scope run_scope.
Delimit Scope run_scope with run.
Notation "x <- m ;; k" := (bind m (fun x => k))
  (at level 100, m at next level, right associativity) : run_scope.
Notation "m ;;; k" := (bind m (fun _ => k))
  (at level 100, right associativity) : run_scope.
Open Scope run_scope.

(** Calling a collaborator appends the call to the trace. *)
Definition invoke {A} (c : call) (r : reply A) : Run A :=
  match r with
  | Done a => ([Ev c None], Returns a)
  | Failed d => ([Ev c (Some d)], Raises (CollaboratorError d))
  end.

(** [try m] runs [m] and hands its outcome over instead of propagating. *)
Definition try {A} (m : Run A) : Run (outcome A) :=
  (fst m, Returns (snd m)).

(** [d[k]] on a dictionary. *)
Definition getitem (d : gmap string pyval) (k : string) : Run pyval :=
  match d !! k with
  | Some v => ret v
  | None => raise (KeyError k)
  end.

(** [d.update(other)]: the keys of [other] win. *)
Definition update (d other : gmap string pyval) : gmap string pyval :=
  other ∪ d.

(** Truth value of [args.suffix]: [None] and the empty string are false. *)
Definition truthy (o : option string) : bool :=
  match o with
  | Some (String _ _) => true
  | _ => false
  end.

(** A Python [str] is written here as the bytes of its UTF-8 encoding,
    which is what a string literal of this file denotes, while [len]
    counts code points. [byte_in lo hi a]: the byte [a] lies in [lo..hi]. *)
Definition byte_in (lo hi : N) (a : Ascii.ascii) : bool :=
  (lo <=? Ascii.N_of_ascii a)%N && (Ascii.N_of_ascii a <=? hi)%N.

Definition continuation (a : Ascii.ascii) : bool := byte_in 128 191 a.

(** First two bytes of a well-formed sequence of three, resp. four bytes
    (no overlong form, no surrogate, nothing above U+10FFFF). *)
Definition three_bytes (a b : Ascii.ascii) : bool :=
  byte_in 224 224 a && byte_in 160 191 b
  || byte_in 225 236 a && continuation b
  || byte_in 237 237 a && byte_in 128 159 b
  || byte_in 238 239 a && continuation b.

Definition four_bytes (a b : Ascii.ascii) : bool :=
  byte_in 240 240 a && byte_in 144 191 b
  || byte_in 241 243 a && continuation b
  || byte_in 244 244 a && byte_in 128 143 b.

(** Number of bytes of the well-formed UTF-8 sequence at the head of [s],
    0 when there is none. *)
Definition sequence_width (s : string) : nat :=
  match s with
  | String a s1 =>
      if byte_in 0 127 a then 1
      else
        match s1 with
        | String b s2 =>
            if byte_in 194 223 a && continuation b then 2
            else
              match s2 with
              | String c s3 =>
                  if three_bytes a b && continuation c then 3
                  else
                    match s3 with
                    | String d _ =>
                        if four_bytes a b && continuation c && continuation d
                        then 4 else 0
                    | EmptyString => 0
                    end
              | EmptyString => 0
              end
        | EmptyString => 0
        end
  | EmptyString => 0
  end.

(** Code points of [s], [inside] bytes of a sequence still to be passed
    over. A byte that starts no well-formed sequence counts for one: it
    is what the decoding of the command line ([surrogateescape]) turns
    into a single lone surrogate. *)
Fixpoint code_points_from (inside : nat) (s : string) : nat :=
  match s with
  | EmptyString => 0
  | String _ s' =>
      match inside with
      | S n => code_points_from n s'
      | O => S (code_points_from (pred (sequence_width s)) s')
      end
  end.

Definition code_points (s : string) : nat := code_points_from 0 s.

(** [len(args.suffix)], evaluated only behind [args.suffix and]. *)
Definition len (o : option string) : nat :=
  match o with
  | Some s => code_points s
  | None => 0
  end.

(** [with mgr as cm: body]: [__enter__] first; when it returns, the body
    runs on its result and [__exit__] is called afterwards with the body's
    exception (or none). The exception is re-raised unless [__exit__]
    returned a true value. *)
Definition with_stmt (w : Collaborators) (mgr : FuncAppBundle.t)
    (body : FuncAppBundle.t -> Run unit) : Run unit :=
  cm <- invoke (Enter mgr) (FuncAppBundle_enter w mgr) ;;
  r <- try (body cm) ;;
  match r with
  | Returns _ =>
      invoke (Exit mgr None) (FuncAppBundle_exit w mgr None) ;;;
      ret tt
  | Raises e =>
      swallow <- invoke (Exit mgr (Some e)) (FuncAppBundle_exit w mgr (Some e)) ;;
      if (swallow : bool) then ret tt else raise e
  end.

(** ** [main] *)

(** Lines 63-65: [common_parameters]. *)
Definition common_parameters (args : Namespace) : gmap string pyval :=
  if truthy (suffix args)
  then <["suffix" := VStr (default EmptyString (suffix args))]> ∅
  else ∅.

(** Lines 67-72. *)
Definition initial_parameters (args : Namespace) : gmap string pyval :=
  update
    (<["use_shared_keys" := VBool false]>
       (<["repo_type" := VStr (repo_type args)]>
          (<["upload_directory" := VStr (upload_directory args)]> ∅)))
    (common_parameters args).

(** Lines 95-99. *)
Definition funcapp_parameters (args : Namespace) : gmap string pyval :=
  update
    (<["repo_type" := VStr (repo_type args)]>
       (<["upload_directory" := VStr (upload_directory args)]> ∅))
    (common_parameters args).

(** Lines 77-83. *)
Definition initial_resources (args : Namespace) : BicepDeployment.t :=
  {| BicepDeployment.deployment_name := resource_group args;
     BicepDeployment.resource_group_name := resource_group args;
     BicepDeployment.template_file := "rg.bicep";
     BicepDeployment.parameters := initial_parameters args;
     BicepDeployment.description := "initial resources" |}.

(** Lines 115-121. *)
Definition event_grid_deployment (args : Namespace) : BicepDeployment.t :=
  {| BicepDeployment.deployment_name := resource_group args +:+ "_eg";
     BicepDeployment.resource_group_name := resource_group args;
     BicepDeployment.template_file := "rg_add_eventgrid.bicep";
     BicepDeployment.parameters := common_parameters args;
     BicepDeployment.description := "Event Grid trigger configuration" |}.

(** Lines 101-107. *)
Definition funcapp (args : Namespace)
    (function_app_name storage_account python_container : pyval)
    : FuncAppBundle.t :=
  {| FuncAppBundle.name := function_app_name;
     FuncAppBundle.resource_group := resource_group args;
     FuncAppBundle.storage_account := storage_account;
     FuncAppBundle.python_container := python_container;
     FuncAppBundle.parameters := funcapp_parameters args |}.

(** The body of [main] after [parse_args] (lines 51-142). Building a
    [Path], a [BicepDeployment] or a [FuncAppBundle] only stores the
    arguments, and [log.debug] goes to a logger with a [NullHandler]: none
    of them is a call in the trace. *)
Definition main_body (w : Collaborators) (args : Namespace) : Run unit :=
  (if truthy (suffix args) && Nat.ltb 14 (len (suffix args))
   then raise (ValueError "Suffix must be 14 characters or fewer.")
   else ret tt) ;;;
  invoke (CreateRg (resource_group args) (location args))
         (create_rg w (resource_group args) (location args)) ;;;
  invoke (ExtractRequirements "requirements.txt")
         (extract_requirements w "requirements.txt") ;;;
  invoke (Create (initial_resources args))
         (BicepDeployment_create w (initial_resources args)) ;;;
  outputs <- invoke (Outputs (initial_resources args))
                    (BicepDeployment_outputs w (initial_resources args)) ;;
  base_url <- getitem outputs "base_url" ;;
  function_app_name <- getitem outputs "function_app_name" ;;
  package_container <- getitem outputs "package_container" ;;
  python_container <- getitem outputs "python_container" ;;
  storage_account <- getitem outputs "storage_account" ;;
  with_stmt w (funcapp args function_app_name storage_account python_container)
    (fun cm =>
       invoke (Deploy cm) (FuncAppBundle_deploy w cm) ;;;
       invoke (WaitForEventTrigger cm)
              (FuncAppBundle_wait_for_event_trigger w cm)) ;;;
  invoke (Create (event_grid_deployment args))
         (BicepDeployment_create w (event_grid_deployment args)) ;;;
  if (repo_type args =? "distribution")%string then
    invoke (AdviceDistributionRepo (upload_directory args) package_container
              storage_account function_app_name base_url)
           (advice_distribution_repo w (upload_directory args)
              package_container storage_account function_app_name base_url)
  else if (repo_type args =? "flat")%string then
    invoke (AdviceFlatRepo (upload_directory args) package_container
              storage_account function_app_name base_url)
           (advice_flat_repo w (upload_directory args)
              package_container storage_account function_app_name base_url)
  else raise (ValueError ("Invalid repo type: " +:+ repo_type args)).

(** [main]: parse the command line, then run the body. *)
Definition main (w : Collaborators) (c : CommandLine) : Run unit :=
  match parse_args c with
  | Returns args => main_body w args
  | Raises e => raise e
  end.

(** ** Observations on a trace *)

(** The progress points of the provisioning sequence. *)
Inductive stage :=
| ContainerStage
| InitialDeploymentStage
| ComputeBundleStage
| EventRoutingStage
| AdvisoryStage.

#[global] Instance stage_eq_dec : EqDecision stage.
Proof. solve_decision. Defined.

(** The order in which [main] goes through them. *)
Definition pipeline : list stage :=
  [ContainerStage; InitialDeploymentStage; ComputeBundleStage;
   EventRoutingStage; AdvisoryStage].

(** The stage a call belongs to. The two Bicep deployments are told apart
    by their template; [extract_requirements] only prepares a local file
    and belongs to no stage. *)
Definition stage_of (c : call) : option stage :=
  match c with
  | CreateRg _ _ => Some ContainerStage
  | ExtractRequirements _ => None
  | Create d | Outputs d =>
      if (BicepDeployment.template_file d =? "rg.bicep")%string
      then Some InitialDeploymentStage
      else Some EventRoutingStage
  | Enter _ | Deploy _ | WaitForEventTrigger _ | Exit _ _ =>
      Some ComputeBundleStage
  | AdviceDistributionRepo _ _ _ _ _ | AdviceFlatRepo _ _ _ _ _ =>
      Some AdvisoryStage
  end.

(** Adjacent repetitions of a stage are one visit. *)
Fixpoint visits (l : list stage) : list stage :=
  match l with
  | x :: (y :: _) as l' =>
      if decide (x = y) then visits l' else x :: visits l'
  | _ => l
  end.

(** The stages a trace goes through, in order. *)
Definition stages (t : list event) : list stage :=
  visits (omap (fun e => stage_of (ev_call e)) t).

(** Stage [s] is gone through by the trace. *)
Definition visited (s : stage) (t : list event) : bool :=
  existsb (fun x => bool_decide (x = s)) (stages t).

Definition is_release (e : event) : bool :=
  match ev_call e with
  | Exit _ _ => true
  | _ => false
  end.

Definition is_failure (e : event) : bool :=
  match ev_failed e with
  | Some _ => true
  | None => false
  end.

(** Once a call has raised, nothing but the release of the bundle session
    is called any more. *)
Fixpoint halts_on_failure (t : list event) : bool :=
  match t with
  | [] => true
  | e :: t' =>
      if is_failure e then forallb is_release t' else halts_on_failure t'
  end.

(** Number of calls to [__exit__]. *)
Definition releases (t : list event) : nat :=
  length (filter (fun e => is_release e = true) t).

(** [__enter__] was called and returned. *)
Definition acquired (t : list event) : bool :=
  existsb (fun e =>
             match ev_call e with
             | Enter _ => negb (is_failure e)
             | _ => false
             end) t.

(** The life of the bundle session along a trace. *)
Inductive session :=
| Unopened
| Opened
| Released.

#[global] Instance session_eq_dec : EqDecision session.
Proof. solve_decision. Defined.

(** One call against the session: [__enter__] opens it when it returns,
    [deploy] and [wait_for_event_trigger] need it open, [__exit__] closes
    an open session, and every other call needs it not to be open. [None]
    is a breach of that discipline. *)
Definition session_step (s : session) (e : event) : option session :=
  match ev_call e, s with
  | Enter _, Unopened => Some (if is_failure e then Unopened else Opened)
  | Enter _, _ => None
  | (Deploy _ | WaitForEventTrigger _), Opened => Some Opened
  | (Deploy _ | WaitForEventTrigger _), _ => None
  | Exit _ _, Opened => Some Released
  | Exit _ _, _ => None
  | _, Opened => None
  | _, _ => Some s
  end.

Fixpoint session_after (s : session) (t : list event) : option session :=
  match t with
  | [] => Some s
  | e :: t' =>
      match session_step s e with
      | Some s' => session_after s' t'
      | None => None
      end
  end.

(** The parameter dictionaries handed to the stages. *)
Definition parameter_sets (t : list event) : list (gmap string pyval) :=
  omap (fun e =>
          match ev_call e with
          | Create d => Some (BicepDeployment.parameters d)
          | Enter f => Some (FuncAppBundle.parameters f)
          | _ => None
          end) t.

(** The deployment names submitted to the deployment service. *)
Definition deployment_names (t : list event) : list string :=
  omap (fun e =>
          match ev_call e with
          | Create d => Some (BicepDeployment.deployment_name d)
          | _ => None
          end) t.

(** The Event Grid deployment was submitted and returned. *)
Definition event_routing_deployed (t : list event) : bool :=
  existsb (fun e =>
             match ev_call e with
             | Create d =>
                 (BicepDeployment.template_file d =? "rg_add_eventgrid.bicep")%string
                 && negb (is_failure e)
             | _ => false
             end) t.

(** The advice printed, by repository type. *)
Definition advisories (t : list event) : list string :=
  omap (fun e =>
          match ev_call e with
          | AdviceDistributionRepo _ _ _ _ _ => Some "distribution"
          | AdviceFlatRepo _ _ _ _ _ => Some "flat"
          | _ => None
          end) t.

(** The run ended in the final [else: raise ValueError(...)] of [main]. *)
Definition invalid_repo_type_raised {A} (r : outcome A) : Prop :=
  exists rt, r = Raises (ValueError ("Invalid repo type: " +:+ rt)).

(** [__exit__] never asks the [with] statement to swallow an exception. *)
Definition propagates (w : Collaborators) : Prop :=
  forall f e, FuncAppBundle_exit w f (Some e) <> Done true.

(** The keys [main] reads from the outputs, in the order it reads them. *)
Definition expected_outputs : list string :=
  ["base_url"; "function_app_name"; "package_container";
   "python_container"; "storage_account"].

(** ** Concrete collaborators *)

(** Collaborators that all return, with [o] as deployment outputs, except
    that [deploy] and [wait_for_event_trigger] answer as given. *)
Definition collaborators (o : gmap string pyval)
    (deploy wait : reply unit) : Collaborators :=
  {| create_rg := fun _ _ => Done tt;
     extract_requirements := fun _ => Done tt;
     BicepDeployment_create := fun _ => Done tt;
     BicepDeployment_outputs := fun _ => Done o;
     FuncAppBundle_enter := fun f => Done f;
     FuncAppBundle_deploy := fun _ => deploy;
     FuncAppBundle_wait_for_event_trigger := fun _ => wait;
     FuncAppBundle_exit := fun _ _ => Done false;
     advice_distribution_repo := fun _ _ _ _ _ => Done tt;
     advice_flat_repo := fun _ _ _ _ _ => Done tt |}.

Definition sample_outputs : gmap string pyval :=
  list_to_map
    [("base_url", VStr "https://repo1.example.net");
     ("function_app_name", VStr "func-ab12");
     ("package_container", VStr "packages");
     ("python_container", VStr "python");
     ("storage_account", VStr "storab12")].

Definition all_return : Collaborators :=
  collaborators sample_outputs (Done tt) (Done tt).

(** The end-to-end command line:
    [repo1 --location eastus --suffix ab12 --upload-directory upload
     --repo-type distribution]. *)
Definition scenario : CommandLine :=
  {| arg_resource_group := "repo1";
     opt_location := Some "eastus";
     opt_suffix := Some "ab12";
     opt_upload_directory := Some "upload";
     opt_repo_type := Some "distribution" |}.

(** Collaborators whose every call returns, with [o] as the outputs of a
    deployment and [__enter__] returning the bundle itself. *)
Record returning (w : Collaborators) (o : gmap string pyval) : Prop := {
  returning_create_rg : forall n l, create_rg w n l = Done tt;
  returning_extract_requirements :
    forall p, extract_requirements w p = Done tt;
  returning_create : forall d, BicepDeployment_create w d = Done tt;
  returning_outputs : forall d, BicepDeployment_outputs w d = Done o;
  returning_enter : forall f, FuncAppBundle_enter w f = Done f;
  returning_deploy : forall cm, FuncAppBundle_deploy w cm = Done tt;
  returning_wait :
    forall cm, FuncAppBundle_wait_for_event_trigger w cm = Done tt;
  returning_exit : forall f, exists b, FuncAppBundle_exit w f None = Done b;
  returning_advice_distribution :
    forall u p s f b, advice_distribution_repo w u p s f b = Done tt;
  returning_advice_flat :
    forall u p s f b, advice_flat_repo w u p s f b = Done tt
}.

(** The objects of the end-to-end scenario, written out. *)
Definition scenario_initial_resources : BicepDeployment.t :=
  {| BicepDeployment.deployment_name := "repo1";
     BicepDeployment.resource_group_name := "repo1";
     BicepDeployment.template_file := "rg.bicep";
     BicepDeployment.parameters :=
       list_to_map
         [("use_shared_keys", VBool false);
          ("repo_type", VStr "distribution");
          ("upload_directory", VStr "upload");
          ("suffix", VStr "ab12")];
     BicepDeployment.description := "initial resources" |}.

Definition scenario_funcapp
    (function_app_name storage_account python_container : pyval)
    : FuncAppBundle.t :=
  {| FuncAppBundle.name := function_app_name;
     FuncAppBundle.resource_group := "repo1";
     FuncAppBundle.storage_account := storage_account;
     FuncAppBundle.python_container := python_container;
     FuncAppBundle.parameters :=
       list_to_map
         [("repo_type", VStr "distribution");
          ("upload_directory", VStr "upload");
          ("suffix", VStr "ab12")] |}.

Definition scenario_event_grid_deployment : BicepDeployment.t :=
  {| BicepDeployment.deployment_name := "repo1_eg";
     BicepDeployment.resource_group_name := "repo1";
     BicepDeployment.template_file := "rg_add_eventgrid.bicep";
     BicepDeployment.parameters := list_to_map [("suffix", VStr "ab12")];
     BicepDeployment.description := "Event Grid trigger configuration" |}.

(** The first of the expected keys that [o] lacks. *)
Definition first_missing (o : gmap string pyval) : option string :=
  List.find (fun k => bool_decide (o !! k = None)) expected_outputs.

(** [outputs()] was called and returned. *)
Definition outputs_read (t : list event) : bool :=
  existsb (fun e =>
             match ev_call e with
             | Outputs _ => negb (is_failure e)
             | _ => false
             end) t.

(** The outputs of a deployment whose template declares no [base_url]. *)
Definition outputs_without_base_url : gmap string pyval :=
  delete "base_url" sample_outputs.

(** The command line [repo1 --suffix S] with every other flag left out;
    [repo1] alone when [S] is absent. *)
Definition suffix_line (s : option string) : CommandLine :=
  {| arg_resource_group := "repo1";
     opt_location := None;
     opt_suffix := s;
     opt_upload_directory := None;
     opt_repo_type := None |}.

(** What [parse_args] makes of [suffix_line s]. *)
Definition suffix_namespace (s : option string) : Namespace :=
  {| resource_group := "repo1";
     location := "eastus";
     suffix := s;
     upload_directory := "upload";
     repo_type := "distribution" |}.

(** The exception of the suffix check (line 52). *)
Definition suffix_too_long : exn :=
  ValueError "Suffix must be 14 characters or fewer.".

(** The first call of a run is [create_rg]: the checks before it passed. *)
Definition starts_provisioning (t : list event) : bool :=
  match t with
  | e :: _ =>
      match ev_call e with
      | CreateRg _ _ => true
      | _ => false
      end
  | [] => false
  end.

(** ** The steps of the pipeline *)

(** The calls of [main] one by one. Unlike a stage, a step keeps the calls
    of the [with] block apart: entering the bundle, [deploy],
    [wait_for_event_trigger] and the release are four steps of the
    compute-bundle stage. *)
Inductive step :=
| SCreateRg
| SExtractRequirements
| SCreateInitial
| SOutputs
| SEnter
| SDeploy
| SWaitForEventTrigger
| SExit
| SCreateEventGrid
| SAdvice.

#[global] Instance step_eq_dec : EqDecision step.
Proof. solve_decision. Defined.

(** The step a call is. The two Bicep deployments are told apart by their
    template, as in [stage_of]. *)
Definition step_of (c : call) : step :=
  match c with
  | CreateRg _ _ => SCreateRg
  | ExtractRequirements _ => SExtractRequirements
  | Create d =>
      if (BicepDeployment.template_file d =? "rg.bicep")%string
      then SCreateInitial
      else SCreateEventGrid
  | Outputs _ => SOutputs
  | Enter _ => SEnter
  | Deploy _ => SDeploy
  | WaitForEventTrigger _ => SWaitForEventTrigger
  | Exit _ _ => SExit
  | AdviceDistributionRepo _ _ _ _ _ | AdviceFlatRepo _ _ _ _ _ => SAdvice
  end.

(** The steps of a trace, one per call, in order. *)
Definition steps (t : list event) : list step :=
  map (fun e => step_of (ev_call e)) t.

(** The steps in the order of the statements of [main] (lines 55-140). *)
Definition plan : list step :=
  [SCreateRg; SExtractRequirements; SCreateInitial; SOutputs; SEnter;
   SDeploy; SWaitForEventTrigger; SExit; SCreateEventGrid; SAdvice].

(** The steps of a run in which [deploy] raised: the release follows it
    at once, [wait_for_event_trigger] is not reached. *)
Definition plan_cut_at_deploy : list step :=
  [SCreateRg; SExtractRequirements; SCreateInitial; SOutputs; SEnter;
   SDeploy; SExit].

(** The steps of the plan that come before the first step of stage [s]:
    what has to be over before [s] starts. *)
Definition steps_before (s : stage) : list step :=
  match s with
  | ContainerStage => []
  | InitialDeploymentStage => [SCreateRg; SExtractRequirements]
  | ComputeBundleStage =>
      [SCreateRg; SExtractRequirements; SCreateInitial; SOutputs]
  | EventRoutingStage =>
      [SCreateRg; SExtractRequirements; SCreateInitial; SOutputs; SEnter;
       SDeploy; SWaitForEventTrigger; SExit]
  | AdvisoryStage =>
      [SCreateRg; SExtractRequirements; SCreateInitial; SOutputs; SEnter;
       SDeploy; SWaitForEventTrigger; SExit; SCreateEventGrid]
  end.

(** The steps of the calls that returned. *)
Definition returned_steps (t : list event) : list step :=
  steps (List.filter (fun e => negb (is_failure e)) t).

(** Collaborators that all return, except that the initial deployment
    fails. *)
Definition initial_deployment_fails : Collaborators :=
  {| create_rg := fun _ _ => Done tt;
     extract_requirements := fun _ => Done tt;
     BicepDeployment_create := fun d =>
       if (BicepDeployment.template_file d =? "rg.bicep")%string
       then Failed "deployment failed"
       else Done tt;
     BicepDeployment_outputs := fun _ => Done sample_outputs;
     FuncAppBundle_enter := fun f => Done f;
     FuncAppBundle_deploy := fun _ => Done tt;
     FuncAppBundle_wait_for_event_trigger := fun _ => Done tt;
     FuncAppBundle_exit := fun _ _ => Done false;
     advice_distribution_repo := fun _ _ _ _ _ => Done tt;
     advice_flat_repo := fun _ _ _ _ _ => Done tt |}.

(** ** Further observations on a trace *)

(** Which function or method a call is to, without its arguments. *)
Inductive kind :=
| KCreateRg
| KExtractRequirements
| KCreate
| KOutputs
| KEnter
| KDeploy
| KWaitForEventTrigger
| KExit
| KAdvice.

Definition kind_of (c : call) : kind :=
  match c with
  | CreateRg _ _ => KCreateRg
  | ExtractRequirements _ => KExtractRequirements
  | Create _ => KCreate
  | Outputs _ => KOutputs
  | Enter _ => KEnter
  | Deploy _ => KDeploy
  | WaitForEventTrigger _ => KWaitForEventTrigger
  | Exit _ _ => KExit
  | AdviceDistributionRepo _ _ _ _ _ | AdviceFlatRepo _ _ _ _ _ => KAdvice
  end.

Definition kinds (t : list event) : list kind :=
  map (fun e => kind_of (ev_call e)) t.

(** The calls of [main] as the statements follow each other in the text,
    [__exit__] left aside. *)
Definition program_order : list kind :=
  [KCreateRg; KExtractRequirements; KCreate; KOutputs; KEnter; KDeploy;
   KWaitForEventTrigger; KCreate; KAdvice].

Definition not_exit (k : kind) : bool :=
  match k with
  | KExit => false
  | _ => true
  end.

(** The diagnostic of the last call that raised. *)
Definition last_failure (t : list event) : option string :=
  last (omap ev_failed t).

(** The calls on the bundle: [__enter__], the body, [__exit__]. *)
Definition is_bundle_call (e : event) : bool :=
  match ev_call e with
  | Enter _ | Deploy _ | WaitForEventTrigger _ | Exit _ _ => true
  | _ => false
  end.

Definition bundle_events (t : list event) : list event :=
  List.filter is_bundle_call t.

(** The shapes the calls on the bundle can take: none; an [__enter__] that
    raises; or [__enter__], then [deploy] and [wait_for_event_trigger] on
    what [__enter__] returned, stopping at the first that raises, then
    [__exit__] on the bundle [main] built, with the exception of the body
    or none. *)
Definition with_block_shape (w : Collaborators) (t : list event) : Prop :=
  match bundle_events t with
  | [] => True
  | [Ev (Enter _) (Some _)] => True
  | [Ev (Enter f) None; Ev (Deploy cm) (Some d); Ev (Exit f' (Some x)) _] =>
      FuncAppBundle_enter w f = Done cm /\ f' = f
      /\ x = CollaboratorError d
  | [Ev (Enter f) None; Ev (Deploy cm) None;
     Ev (WaitForEventTrigger cm') (Some d); Ev (Exit f' (Some x)) _] =>
      FuncAppBundle_enter w f = Done cm /\ cm' = cm /\ f' = f
      /\ x = CollaboratorError d
  | [Ev (Enter f) None; Ev (Deploy cm) None;
     Ev (WaitForEventTrigger cm') None; Ev (Exit f' None) _] =>
      FuncAppBundle_enter w f = Done cm /\ cm' = cm /\ f' = f
  | _ => False
  end.

(** [deploy] or [wait_for_event_trigger] raised. *)
Definition body_failed (t : list event) : bool :=
  existsb (fun e =>
             match ev_call e with
             | Deploy _ | WaitForEventTrigger _ => is_failure e
             | _ => false
             end) t.

(** The Event Grid deployment was submitted. *)
Definition event_routing_submitted (t : list event) : bool :=
  existsb (fun e =>
             match ev_call e with
             | Create d =>
                 (BicepDeployment.template_file d
                  =? "rg_add_eventgrid.bicep")%string
             | _ => false
             end) t.

(** Every object of a call is in resource group [rg]. [deploy] and
    [wait_for_event_trigger] are left out: they are called on whatever
    [__enter__] returned. *)
Definition targets (rg : string) (e : event) : Prop :=
  match ev_call e with
  | CreateRg n _ => n = rg
  | Create d | Outputs d => BicepDeployment.resource_group_name d = rg
  | Enter f | Exit f _ => FuncAppBundle.resource_group f = rg
  | _ => True
  end.

(** The arguments of a call come from the outputs [o] and from [args] the
    way [main] wires them. *)
Definition fed_from (args : Namespace) (o : gmap string pyval) (e : event)
    : Prop :=
  match ev_call e with
  | Enter f | Exit f _ =>
      o !! "function_app_name" = Some (FuncAppBundle.name f)
      /\ o !! "storage_account" = Some (FuncAppBundle.storage_account f)
      /\ o !! "python_container" = Some (FuncAppBundle.python_container f)
      /\ FuncAppBundle.parameters f = funcapp_parameters args
  | AdviceDistributionRepo u pc sa fa url | AdviceFlatRepo u pc sa fa url =>
      u = upload_directory args
      /\ o !! "package_container" = Some pc
      /\ o !! "storage_account" = Some sa
      /\ o !! "function_app_name" = Some fa
      /\ o !! "base_url" = Some url
  | _ => True
  end.

(** What a call carries of the command line [c], defaults filled in. *)
Definition configured (c : CommandLine) (e : event) : Prop :=
  match ev_call e with
  | CreateRg n l =>
      n = arg_resource_group c /\ l = default "eastus" (opt_location c)
  | ExtractRequirements p => p = "requirements.txt"
  | Create d =>
      BicepDeployment.template_file d = "rg.bicep" ->
      BicepDeployment.parameters d !! "use_shared_keys" = Some (VBool false)
      /\ BicepDeployment.parameters d !! "repo_type"
         = Some (VStr (default "distribution" (opt_repo_type c)))
      /\ BicepDeployment.parameters d !! "upload_directory"
         = Some (VStr (default "upload" (opt_upload_directory c)))
  | Enter f =>
      FuncAppBundle.parameters f !! "use_shared_keys" = None
      /\ FuncAppBundle.parameters f !! "repo_type"
         = Some (VStr (default "distribution" (opt_repo_type c)))
      /\ FuncAppBundle.parameters f !! "upload_directory"
         = Some (VStr (default "upload" (opt_upload_directory c)))
  | AdviceDistributionRepo u _ _ _ _ =>
      u = default "upload" (opt_upload_directory c)
      /\ default "distribution" (opt_repo_type c) = "distribution"
  | AdviceFlatRepo u _ _ _ _ =>
      u = default "upload" (opt_upload_directory c)
      /\ default "distribution" (opt_repo_type c) = "flat"
  | _ => True
  end.

(** [w] with the outputs of every deployment replaced by [o]. *)
Definition with_outputs (w : Collaborators) (o : gmap string pyval)
    : Collaborators :=
  {| create_rg := create_rg w;
     extract_requirements := extract_requirements w;
     BicepDeployment_create := BicepDeployment_create w;
     BicepDeployment_outputs := fun _ => Done o;
     FuncAppBundle_enter := FuncAppBundle_enter w;
     FuncAppBundle_deploy := FuncAppBundle_deploy w;
     FuncAppBundle_wait_for_event_trigger :=
       FuncAppBundle_wait_for_event_trigger w;
     FuncAppBundle_exit := FuncAppBundle_exit w;
     advice_distribution_repo := advice_distribution_repo w;
     advice_flat_repo := advice_flat_repo w |}.

(** [__exit__] always asks for the exception to be swallowed. *)
Definition swallows (w : Collaborators) : Prop :=
  forall f e, FuncAppBundle_exit w f (Some e) = Done true.

(** Collaborators that all return, except that [deploy] raises and
    [__exit__] returns a true value. *)
Definition swallowing : Collaborators :=
  {| create_rg := fun _ _ => Done tt;
     extract_requirements := fun _ => Done tt;
     BicepDeployment_create := fun _ => Done tt;
     BicepDeployment_outputs := fun _ => Done sample_outputs;
     FuncAppBundle_enter := fun f => Done f;
     FuncAppBundle_deploy := fun _ => Failed "zip deploy failed";
     FuncAppBundle_wait_for_event_trigger := fun _ => Done tt;
     FuncAppBundle_exit := fun _ _ => Done true;
     advice_distribution_repo := fun _ _ _ _ _ => Done tt;
     advice_flat_repo := fun _ _ _ _ _ => Done tt |}.

(** Outputs with keys [main] does not read. *)
Definition outputs_with_more : gmap string pyval :=
  <["location" := VStr "eastus"]> (<["sku" := VInt 2]> sample_outputs).

(** ** Symbolic execution of [main] *)

Ltac crank := cbn [bind invoke ret raise try fst snd app].

Ltac answer r := destruct r as [?|?] eqn:?; crank.

Ltac read_key k :=
  try (match goal with
       | |- context [?o !! k] => destruct (o !! k) eqn:?; crank
       end).

(** Splits a goal about [main_body w args] into one goal per path through
    the body, following the statements in program order. *)
Ltac run_body w :=
  unfold main_body, with_stmt, getitem;
  try (match goal with
       | |- context [truthy ?s && ?b] => destruct (truthy s && b) eqn:?
       end; crank);
  try (match goal with
       | |- context [create_rg w ?a ?b] => answer (create_rg w a b)
       end);
  try (match goal with
       | |- context [extract_requirements w ?a] =>
           answer (extract_requirements w a)
       end);
  try (match goal with
       | |- context [BicepDeployment_create w (initial_resources ?a)] =>
           answer (BicepDeployment_create w (initial_resources a))
       end);
  try (match goal with
       | |- context [BicepDeployment_outputs w ?a] =>
           answer (BicepDeployment_outputs w a)
       end);
  read_key "base_url"; read_key "function_app_name";
  read_key "package_container"; read_key "python_container";
  read_key "storage_account";
  try (match goal with
       | |- context [FuncAppBundle_enter w ?a] =>
           answer (FuncAppBundle_enter w a)
       end);
  try (match goal with
       | |- context [FuncAppBundle_deploy w ?a] =>
           answer (FuncAppBundle_deploy w a)
       end);
  try (match goal with
       | |- context [FuncAppBundle_wait_for_event_trigger w ?a] =>
           answer (FuncAppBundle_wait_for_event_trigger w a)
       end);
  try (match goal with
       | |- context [FuncAppBundle_exit w ?a ?b] =>
           answer (FuncAppBundle_exit w a b)
       end);
  try (match goal with
       | |- context [if ?b then ret tt else raise _] => destruct b; crank
       end);
  try (match goal with
       | |- context [BicepDeployment_create w (event_grid_deployment ?a)] =>
           answer (BicepDeployment_create w (event_grid_deployment a))
       end);
  try (match goal with
       | |- context [String.eqb ?a "distribution"] =>
           destruct (String.eqb_spec a "distribution"); crank
       end);
  try (match goal with
       | |- context [String.eqb ?a "flat"] =>
           destruct (String.eqb_spec a "flat"); crank
       end);
  try (match goal with
       | |- context [advice_distribution_repo w ?a ?b ?c ?d ?e] =>
           answer (advice_distribution_repo w a b c d e)
       end);
  try (match goal with
       | |- context [advice_flat_repo w ?a ?b ?c ?d ?e] =>
           answer (advice_flat_repo w a b c d e)
       end).

Lemma propagates_not_swallowed w f e :
  propagates w -> FuncAppBundle_exit w f (Some e) = Done true -> False.
Proof. intros Hw Hx. exact (Hw f e Hx). Qed.

Ltac swallowed :=
  match goal with
  | Hw : propagates ?w,
    Hx : FuncAppBundle_exit ?w ?f (Some ?e) = Done true |- _ =>
      exfalso; exact (propagates_not_swallowed w f e Hw Hx)
  end.

(** Closes a goal saying that an outcome which visibly is not the final
    [ValueError] of [main] is not it. *)
Ltac not_invalid :=
  let rt := fresh "rt" in
  let H := fresh "H" in
  intros [rt H]; discriminate H.

Lemma collaborators_propagate o d t : propagates (collaborators o d t).
Proof. intros f e. discriminate. Qed.

(** What [parse_args] leaves in the namespace. *)
Lemma parse_args_fields c args :
  parse_args c = Returns args ->
  resource_group args = arg_resource_group c
  /\ suffix args = opt_suffix c
  /\ in_choices (repo_type args) = true.
Proof.
  unfold parse_args. destruct (opt_repo_type c) as [r|].
  - destruct (in_choices r) eqn:Hr; [|discriminate].
    intros [= <-]. cbn. auto.
  - intros [= <-]. cbn. auto.
Qed.

Lemma in_choices_cases r :
  in_choices r = true -> r = "flat" \/ r = "distribution".
Proof.
  unfold in_choices, choices. cbn [existsb].
  destruct (String.eqb_spec r "flat") as [->|_]; [auto|].
  destruct (String.eqb_spec r "distribution") as [->|_]; [auto|].
  discriminate.
Qed.

(** ** The order of the stages and of their steps *)

Lemma main_body_stage_order w args :
  propagates w ->
  stages (main_body w args).1 `prefix_of` pipeline
  /\ halts_on_failure (main_body w args).1 = true
  /\ ((main_body w args).2 = Returns tt ->
      stages (main_body w args).1 = pipeline
      /\ existsb is_failure (main_body w args).1 = false)
  /\ (existsb is_failure (main_body w args).1 = true ->
      exists e, (main_body w args).2 = Raises e)
  /\ (forall d,
        BicepDeployment_create w (initial_resources args) = Failed d ->
        visited ComputeBundleStage (main_body w args).1 = false
        /\ exists e, (main_body w args).2 = Raises e).
Proof.
  intros Hw. run_body w; try swallowed.
  all: repeat split.
  all: try (intros; congruence).
  all: try (vm_compute; reflexivity).
  all: try (eexists; reflexivity).
  all: try (intros; eexists; reflexivity).
  all: intros H; vm_compute in H; discriminate H.
Qed.

Lemma main_body_step_order w args :
  propagates w ->
  (steps (main_body w args).1 `prefix_of` plan
   \/ steps (main_body w args).1 = plan_cut_at_deploy)
  /\ ((main_body w args).2 = Returns tt -> steps (main_body w args).1 = plan)
  /\ (forall s, visited s (main_body w args).1 = true ->
                steps_before s `prefix_of` returned_steps (main_body w args).1).
Proof.
  intros Hw. run_body w; try swallowed.
  all: split; [|split].
  all: try (left; eexists; vm_compute; reflexivity).
  all: try (right; vm_compute; reflexivity).
  all: try discriminate.
  all: try (intros _; reflexivity).
  all: intros s; destruct s; vm_compute; intros Hv; try discriminate Hv.
  all: eexists; reflexivity.
Qed.

(** C1. Provided [__exit__] lets exceptions through, every run of [main]
    makes its calls in the order of the plan: [create_rg],
    [extract_requirements], the initial deployment and its outputs, then
    the bundle unit ([__enter__], [deploy], [wait_for_event_trigger],
    [__exit__]), then the Event Grid deployment, then the advice. The
    calls of a run are an initial part of that sequence, the one exception
    being that [__exit__] follows at once when [deploy] raised; so no step
    is skipped or made out of order, and the stages are gone through in
    the order container, initial deployment, compute bundle, event
    routing, advisory. A stage is started only when every step before it
    has returned. Once a call has raised, only the release of the bundle
    session is still called and [main] ends in an exception. A run that
    returns has made all ten steps, the deploy-and-wait unit included, and
    none of them failed. When the initial deployment raises, no call of
    the compute-bundle stage is made. *)
Theorem main_runs_stages_in_order (w : Collaborators) (c : CommandLine) :
  propagates w ->
  stages (main w c).1 `prefix_of` pipeline
  /\ (steps (main w c).1 `prefix_of` plan
      \/ steps (main w c).1 = plan_cut_at_deploy)
  /\ (forall s, visited s (main w c).1 = true ->
                steps_before s `prefix_of` returned_steps (main w c).1)
  /\ halts_on_failure (main w c).1 = true
  /\ ((main w c).2 = Returns tt ->
      steps (main w c).1 = plan
      /\ stages (main w c).1 = pipeline
      /\ existsb is_failure (main w c).1 = false)
  /\ (existsb is_failure (main w c).1 = true ->
      exists e, (main w c).2 = Raises e)
  /\ (forall args d,
        parse_args c = Returns args ->
        BicepDeployment_create w (initial_resources args) = Failed d ->
        visited ComputeBundleStage (main w c).1 = false
        /\ exists e, (main w c).2 = Raises e).
Proof.
  intros Hw. unfold main. destruct (parse_args c) as [a|x] eqn:Hp.
  - destruct (main_body_stage_order w a Hw) as (H1 & H2 & H3 & H4 & H5).
    destruct (main_body_step_order w a Hw) as (S1 & S2 & S3).
    split; [exact H1|]. split; [exact S1|]. split; [exact S3|].
    split; [exact H2|].
    split; [intros Hr; split; [exact (S2 Hr)|exact (H3 Hr)]|].
    split; [exact H4|].
    intros args d [= <-] Hd. exact (H5 d Hd).
  - cbn [fst snd]. split; [eexists; reflexivity|].
    split; [left; eexists; reflexivity|].
    split; [intros s Hv; destruct s; discriminate Hv|].
    split; [reflexivity|].
    split; [discriminate|]. split; [discriminate|]. discriminate.
Qed.

(** A run in which every call returns makes the ten steps; one in which
    the initial deployment fails stops there. *)
Lemma main_runs_stages_in_order_witness :
  propagates all_return
  /\ (main all_return scenario).2 = Returns tt
  /\ steps (main all_return scenario).1 = plan
  /\ stages (main all_return scenario).1 = pipeline
  /\ visited ComputeBundleStage (main initial_deployment_fails scenario).1
     = false.
Proof.
  split; [apply collaborators_propagate|].
  split; [vm_compute; reflexivity|].
  destruct (main_runs_stages_in_order all_return scenario
              (collaborators_propagate _ _ _)) as (_ & _ & _ & _ & H & _).
  destruct H as (Hs & Ht & _); [vm_compute; reflexivity|].
  split; [exact Hs|]. split; [exact Ht|].
  destruct (main_runs_stages_in_order initial_deployment_fails scenario)
    as (_ & _ & _ & _ & _ & _ & H'); [intros f e; discriminate|].
  apply (H' _ "deployment failed" eq_refl). reflexivity.
Defined.

Lemma all_return_returning : returning all_return sample_outputs.
Proof. constructor; intros; try reflexivity. exists false. reflexivity. Qed.

(** ** The end-to-end scenario *)

Lemma scenario_parsed :
  parse_args scenario =
  Returns {| resource_group := "repo1"; location := "eastus";
             suffix := Some "ab12"; upload_directory := "upload";
             repo_type := "distribution" |}.
Proof. reflexivity. Qed.

(** C2. On the command line [repo1 --location eastus --suffix ab12
    --upload-directory upload --repo-type distribution], with collaborators
    that all return and outputs holding the five expected keys, [main]
    makes exactly these calls and returns: [create_rg("repo1", "eastus")],
    the deployment ["repo1"] of [rg.bicep] with parameters
    [use_shared_keys=False], [repo_type="distribution"],
    [upload_directory="upload"], [suffix="ab12"], the bundle built from the
    returned [function_app_name], [storage_account] and [python_container],
    deployed and waited for inside the [with] block, the deployment
    ["repo1_eg"] of [rg_add_eventgrid.bicep], and the distribution advice
    with [base_url]. *)
Theorem end_to_end_scenario (w : Collaborators) (o : gmap string pyval)
    (base_url function_app_name package_container python_container
       storage_account : pyval) :
  returning w o ->
  o !! "base_url" = Some base_url ->
  o !! "function_app_name" = Some function_app_name ->
  o !! "package_container" = Some package_container ->
  o !! "python_container" = Some python_container ->
  o !! "storage_account" = Some storage_account ->
  main w scenario =
  ([Ev (CreateRg "repo1" "eastus") None;
    Ev (ExtractRequirements "requirements.txt") None;
    Ev (Create scenario_initial_resources) None;
    Ev (Outputs scenario_initial_resources) None;
    Ev (Enter (scenario_funcapp function_app_name storage_account
                 python_container)) None;
    Ev (Deploy (scenario_funcapp function_app_name storage_account
                  python_container)) None;
    Ev (WaitForEventTrigger (scenario_funcapp function_app_name
                               storage_account python_container)) None;
    Ev (Exit (scenario_funcapp function_app_name storage_account
                python_container) None) None;
    Ev (Create scenario_event_grid_deployment) None;
    Ev (AdviceDistributionRepo "upload" package_container storage_account
          function_app_name base_url) None],
   Returns tt).
Proof.
  intros [Hrg Hreq Hcreate Hout Henter Hdeploy Hwait Hexit Hadv _].
  intros Hb Hf Hp Hy Hs.
  unfold main. rewrite scenario_parsed.
  unfold main_body, with_stmt, getitem.
  match goal with
  | |- context [truthy ?s && ?b] =>
      replace (truthy s && b) with false by (vm_compute; reflexivity)
  end.
  crank.
  rewrite Hrg; crank. rewrite Hreq; crank. rewrite Hcreate; crank.
  rewrite Hout; crank. rewrite Hb; crank. rewrite Hf; crank.
  rewrite Hp; crank. rewrite Hy; crank. rewrite Hs; crank.
  rewrite Henter; crank. rewrite Hdeploy; crank. rewrite Hwait; crank.
  match goal with
  | |- context [FuncAppBundle_exit w ?f None] =>
      destruct (Hexit f) as [b Hb']; rewrite Hb'; crank
  end.
  rewrite Hcreate; crank.
  cbn [repo_type String.eqb Ascii.eqb Bool.eqb]. rewrite Hadv; crank.
  reflexivity.
Qed.

Lemma end_to_end_scenario_witness :
  (main all_return scenario).2 = Returns tt
  /\ advisories (main all_return scenario).1 = ["distribution"].
Proof.
  rewrite (end_to_end_scenario all_return sample_outputs
             (VStr "https://repo1.example.net") (VStr "func-ab12")
             (VStr "packages") (VStr "python") (VStr "storab12")
             all_return_returning eq_refl eq_refl eq_refl eq_refl eq_refl).
  split; reflexivity.
Defined.

(** ** The [with] block *)

(** C3. In every run in which [__enter__] has returned, so that the body
    of the [with] block is executed, [__exit__] is called exactly once and
    after the calls of the body, whatever [deploy] and
    [wait_for_event_trigger] do: return, or raise (a timeout included).
    In a run that never gets a session, [__exit__] is not called. *)
Theorem bundle_session_released_once (w : Collaborators) (c : CommandLine) :
  (acquired (main w c).1 = true ->
   releases (main w c).1 = 1
   /\ session_after Unopened (main w c).1 = Some Released)
  /\ (acquired (main w c).1 = false ->
      releases (main w c).1 = 0
      /\ session_after Unopened (main w c).1 = Some Unopened).
Proof.
  unfold main. destruct (parse_args c) as [args|x].
  2: { split; [discriminate|split; reflexivity]. }
  run_body w.
  all: split; intros H; try (vm_compute in H; discriminate H).
  all: split; vm_compute; reflexivity.
Qed.

(** A run in which [wait_for_event_trigger] times out. *)
Lemma bundle_session_released_once_witness :
  acquired
    (main (collaborators sample_outputs (Done tt) (Failed "trigger timeout"))
          scenario).1 = true
  /\ releases
       (main (collaborators sample_outputs (Done tt)
                (Failed "trigger timeout")) scenario).1 = 1.
Proof.
  split; [vm_compute; reflexivity|].
  apply (bundle_session_released_once
           (collaborators sample_outputs (Done tt) (Failed "trigger timeout"))
           scenario).
  vm_compute. reflexivity.
Defined.

(** ** Reading the outputs *)

(** C4. When the outputs returned for the initial deployment lack one of
    the keys [base_url], [function_app_name], [package_container],
    [python_container], [storage_account], a run that gets as far as
    reading them ends in [KeyError] on the first key missing, right after
    the call of [outputs()]: the bundle, the Event Grid deployment and the
    advice are never called. *)
Theorem missing_output_raises (w : Collaborators) (c : CommandLine)
    (args : Namespace) (o : gmap string pyval) (k : string) :
  parse_args c = Returns args ->
  BicepDeployment_outputs w (initial_resources args) = Done o ->
  first_missing o = Some k ->
  outputs_read (main w c).1 = true ->
  main w c =
  ([Ev (CreateRg (resource_group args) (location args)) None;
    Ev (ExtractRequirements "requirements.txt") None;
    Ev (Create (initial_resources args)) None;
    Ev (Outputs (initial_resources args)) None],
   Raises (KeyError k))
  /\ stages (main w c).1 = [ContainerStage; InitialDeploymentStage].
Proof.
  intros Hparse Ho Hk. unfold main. rewrite Hparse.
  unfold first_missing, expected_outputs in Hk. cbn [List.find] in Hk.
  run_body w.
  all: try (intros H; vm_compute in H; discriminate H).
  all: match goal with
       | Hx : BicepDeployment_outputs _ _ = Done ?o' |- _ =>
           assert (o' = o) as -> by congruence
       end.
  all: repeat match goal with
         | Hl : _ !! _ = _ |- _ => rewrite Hl in Hk; clear Hl
         end.
  all: cbn in Hk; try discriminate Hk.
  all: injection Hk as <-; intros _; split; [reflexivity|].
  all: vm_compute; reflexivity.
Qed.

Lemma missing_output_raises_witness :
  (main (collaborators outputs_without_base_url (Done tt) (Done tt))
        scenario).2 = Raises (KeyError "base_url").
Proof.
  pose proof (missing_output_raises
                (collaborators outputs_without_base_url (Done tt) (Done tt))
                scenario _ outputs_without_base_url "base_url"
                scenario_parsed eq_refl eq_refl eq_refl) as [H _].
  rewrite H. reflexivity.
Defined.

(** ** The suffix *)

Lemma main_parsed w c args :
  parse_args c = Returns args -> main w c = main_body w args.
Proof. intros H. unfold main. rewrite H. reflexivity. Qed.

Lemma suffix_line_parsed s :
  parse_args (suffix_line s) = Returns (suffix_namespace s).
Proof. reflexivity. Qed.

Lemma truthy_nonempty s : s <> EmptyString -> truthy (Some s) = true.
Proof. destruct s; [congruence|reflexivity]. Qed.

Lemma common_parameters_suffix args s :
  suffix args = Some s -> s <> EmptyString ->
  common_parameters args = {["suffix" := VStr s]}.
Proof.
  intros Hs Hne. unfold common_parameters. rewrite Hs, truthy_nonempty by done.
  reflexivity.
Qed.

Lemma common_parameters_empty args :
  truthy (suffix args) = false -> common_parameters args = ∅.
Proof. intros H. unfold common_parameters. rewrite H. reflexivity. Qed.

(** With a suffix, each of the three dictionaries carries it. *)
Lemma parameters_with_suffix args s :
  suffix args = Some s -> s <> EmptyString ->
  initial_parameters args !! "suffix" = Some (VStr s)
  /\ funcapp_parameters args !! "suffix" = Some (VStr s)
  /\ common_parameters args !! "suffix" = Some (VStr s).
Proof.
  intros Hs Hne. unfold initial_parameters, funcapp_parameters, update.
  rewrite (common_parameters_suffix args s Hs Hne).
  split; [apply lookup_union_Some_l, lookup_singleton_eq|].
  split; [apply lookup_union_Some_l, lookup_singleton_eq|].
  apply lookup_singleton_eq.
Qed.

(** Without one, none of them has the key. *)
Lemma parameters_without_suffix args :
  truthy (suffix args) = false ->
  initial_parameters args !! "suffix" = None
  /\ funcapp_parameters args !! "suffix" = None
  /\ common_parameters args !! "suffix" = None.
Proof.
  intros H. unfold initial_parameters, funcapp_parameters, update.
  rewrite (common_parameters_empty args H).
  split; [|split]; reflexivity.
Qed.

(** The dictionaries handed over in a run are these three, in this order,
    up to the point the run stops at. *)
Lemma parameter_sets_prefix w args :
  parameter_sets (main_body w args).1
    `prefix_of` [initial_parameters args; funcapp_parameters args;
                 common_parameters args].
Proof.
  run_body w.
  all: cbn [parameter_sets omap ev_call BicepDeployment.parameters
            FuncAppBundle.parameters initial_resources funcapp
            event_grid_deployment option_bind mbind].
  all: eexists; reflexivity.
Qed.

Lemma Forall_prefix {A} (P : A -> Prop) (l k : list A) :
  l `prefix_of` k -> Forall P k -> Forall P l.
Proof. intros [m ->] H. apply Forall_app in H. tauto. Qed.

Lemma parameter_sets_with_suffix w args s :
  suffix args = Some s -> s <> EmptyString ->
  Forall (fun p : gmap string pyval => p !! "suffix" = Some (VStr s))
    (parameter_sets (main_body w args).1).
Proof.
  intros Hs Hne.
  apply (Forall_prefix _ _ _ (parameter_sets_prefix w args)).
  destruct (parameters_with_suffix args s Hs Hne) as (Hi & Hf & Hg).
  repeat constructor; assumption.
Qed.

Lemma parameter_sets_without_suffix w args :
  truthy (suffix args) = false ->
  Forall (fun p : gmap string pyval => p !! "suffix" = None)
    (parameter_sets (main_body w args).1).
Proof.
  intros Ht.
  apply (Forall_prefix _ _ _ (parameter_sets_prefix w args)).
  destruct (parameters_without_suffix args Ht) as (Hi & Hf & Hg).
  repeat constructor; assumption.
Qed.

Lemma suffix_check_passes w args :
  truthy (suffix args) && Nat.ltb 14 (len (suffix args)) = false ->
  starts_provisioning (main_body w args).1 = true
  /\ (main_body w args).2 <> Raises suffix_too_long.
Proof.
  intros Hc. run_body w; try congruence.
  all: split; [reflexivity|discriminate].
Qed.

Lemma suffix_check_fails w args :
  truthy (suffix args) && Nat.ltb 14 (len (suffix args)) = true ->
  main_body w args = ([], Raises suffix_too_long).
Proof.
  intros Hc. unfold main_body. rewrite Hc. reflexivity.
Qed.

(** C5, as stated, fails on the empty suffix: it is no longer than 14
    characters, the run goes through and hands three parameter
    dictionaries to the stages, and none of them holds the suffix. *)
Lemma empty_suffix_is_not_passed :
  opt_suffix (suffix_line (Some EmptyString)) = Some EmptyString
  /\ len (Some EmptyString) <= 14
  /\ (main all_return (suffix_line (Some EmptyString))).2 = Returns tt
  /\ length (parameter_sets
               (main all_return (suffix_line (Some EmptyString))).1) = 3
  /\ Forall (fun p : gmap string pyval =>
               p !! "suffix" <> Some (VStr EmptyString))
       (parameter_sets (main all_return (suffix_line (Some EmptyString))).1).
Proof.
  split; [reflexivity|]. split; [vm_compute; lia|].
  split; [vm_compute; reflexivity|]. split; [vm_compute; reflexivity|].
  rewrite (main_parsed _ _ _ (suffix_line_parsed _)).
  eapply Forall_impl;
    [apply (parameter_sets_without_suffix all_return); reflexivity|].
  intros p Hp. cbn beta in Hp. rewrite Hp. discriminate.
Qed.

(** C5, amended. A non-empty suffix of at most 14 characters (code
    points, as [len] counts them, not bytes) passes the check ([create_rg]
    is called) and is the value of ["suffix"] in every parameter
    dictionary handed to a stage; a suffix of more than 14 characters
    makes [main] raise [ValueError] before any call. *)
Theorem suffix_validated_and_passed (w : Collaborators) (c : CommandLine)
    (args : Namespace) (s : string) :
  parse_args c = Returns args ->
  opt_suffix c = Some s ->
  (s <> EmptyString -> len (Some s) <= 14 ->
   starts_provisioning (main w c).1 = true
   /\ (main w c).2 <> Raises suffix_too_long
   /\ Forall (fun p : gmap string pyval => p !! "suffix" = Some (VStr s))
        (parameter_sets (main w c).1))
  /\ (14 < len (Some s) -> main w c = ([], Raises suffix_too_long)).
Proof.
  intros Hparse Hs. rewrite (main_parsed w c args Hparse).
  destruct (parse_args_fields c args Hparse) as (_ & Hsuf & _).
  rewrite Hs in Hsuf. split.
  - intros Hne Hlen.
    assert (truthy (suffix args) && Nat.ltb 14 (len (suffix args)) = false)
      as Hc.
    { rewrite Hsuf. apply andb_false_iff. right.
      apply Nat.ltb_ge. exact Hlen. }
    destruct (suffix_check_passes w args Hc) as [H1 H2].
    split; [exact H1|]. split; [exact H2|].
    apply parameter_sets_with_suffix; assumption.
  - intros Hlen. apply suffix_check_fails. rewrite Hsuf.
    apply andb_true_iff. split.
    + apply truthy_nonempty. intros ->. vm_compute in Hlen. lia.
    + apply Nat.ltb_lt. exact Hlen.
Qed.

(** [ab12] and the five characters of [日本語日本] (15 bytes) are passed
    on; the 15 characters of [abcdefghijklmno] are refused. *)
Lemma suffix_validated_and_passed_witness :
  Forall (fun p : gmap string pyval => p !! "suffix" = Some (VStr "ab12"))
    (parameter_sets (main all_return scenario).1)
  /\ Forall (fun p : gmap string pyval =>
               p !! "suffix" = Some (VStr "日本語日本"))
       (parameter_sets (main all_return (suffix_line (Some "日本語日本"))).1)
  /\ main all_return (suffix_line (Some "abcdefghijklmno"))
     = ([], Raises suffix_too_long).
Proof.
  split; [|split].
  - apply (suffix_validated_and_passed all_return scenario _ "ab12"
             scenario_parsed eq_refl).
    + discriminate.
    + vm_compute. lia.
  - apply (suffix_validated_and_passed all_return
             (suffix_line (Some "日本語日本")) _ "日本語日本"
             (suffix_line_parsed _) eq_refl).
    + discriminate.
    + vm_compute. lia.
  - apply (suffix_validated_and_passed all_return
             (suffix_line (Some "abcdefghijklmno")) _ "abcdefghijklmno"
             (suffix_line_parsed _) eq_refl).
    vm_compute. lia.
Defined.

(** C6, as stated, fails: with no [--suffix] the run goes through, hands
    three parameter dictionaries to the stages, and there is no suffix
    that they hold: no generated value is in use by the calls [main]
    makes. *)
Lemma no_suffix_is_generated :
  opt_suffix (suffix_line None) = None
  /\ (main all_return (suffix_line None)).2 = Returns tt
  /\ length (parameter_sets (main all_return (suffix_line None)).1) = 3
  /\ ~ exists s : string,
         Forall (fun p : gmap string pyval => p !! "suffix" = Some (VStr s))
           (parameter_sets (main all_return (suffix_line None)).1).
Proof.
  split; [reflexivity|]. split; [vm_compute; reflexivity|].
  assert (length (parameter_sets (main all_return (suffix_line None)).1) = 3)
    as Hlen by (vm_compute; reflexivity).
  split; [exact Hlen|].
  intros [s H].
  pose proof (parameter_sets_without_suffix all_return
                (suffix_namespace None) eq_refl) as Hnone.
  rewrite <- (main_parsed _ _ _ (suffix_line_parsed None)) in Hnone.
  destruct (parameter_sets (main all_return (suffix_line None)).1)
    as [|p l]; [discriminate Hlen|].
  apply Forall_cons_1 in H as [H _]. apply Forall_cons_1 in Hnone as [Hn _].
  congruence.
Qed.

(** C6, amended. Without [--suffix], [main] generates nothing: the check
    passes, the common parameters are empty and no parameter dictionary
    handed to a stage has the key ["suffix"], which leaves the choice of a
    suffix to the templates. *)
Theorem absent_suffix_is_omitted (w : Collaborators) (c : CommandLine)
    (args : Namespace) :
  parse_args c = Returns args ->
  opt_suffix c = None ->
  common_parameters args = ∅
  /\ starts_provisioning (main w c).1 = true
  /\ Forall (fun p : gmap string pyval => p !! "suffix" = None)
       (parameter_sets (main w c).1).
Proof.
  intros Hparse Hs. rewrite (main_parsed w c args Hparse).
  destruct (parse_args_fields c args Hparse) as (_ & Hsuf & _).
  rewrite Hs in Hsuf.
  assert (truthy (suffix args) = false) as Ht by (rewrite Hsuf; reflexivity).
  split; [apply common_parameters_empty, Ht|].
  split; [apply suffix_check_passes; rewrite Ht; reflexivity|].
  apply parameter_sets_without_suffix, Ht.
Qed.

Lemma absent_suffix_is_omitted_witness :
  Forall (fun p : gmap string pyval => p !! "suffix" = None)
    (parameter_sets (main all_return (suffix_line None)).1).
Proof.
  apply (absent_suffix_is_omitted all_return (suffix_line None) _
           (suffix_line_parsed None) eq_refl).
Defined.

(** C10. An empty [--suffix] passes the length check ([create_rg] is
    called, no [ValueError]) and is then treated as absent: the common
    parameters are empty, and neither the initial deployment, nor the
    bundle, nor the Event Grid deployment gets a ["suffix"] parameter. *)
Theorem empty_suffix_is_treated_as_absent (w : Collaborators)
    (c : CommandLine) (args : Namespace) :
  parse_args c = Returns args ->
  opt_suffix c = Some EmptyString ->
  starts_provisioning (main w c).1 = true
  /\ (main w c).2 <> Raises suffix_too_long
  /\ common_parameters args = ∅
  /\ BicepDeployment.parameters (initial_resources args) !! "suffix" = None
  /\ (forall n s p : pyval,
        FuncAppBundle.parameters (funcapp args n s p) !! "suffix" = None)
  /\ BicepDeployment.parameters (event_grid_deployment args) !! "suffix" = None
  /\ Forall (fun p : gmap string pyval => p !! "suffix" = None)
       (parameter_sets (main w c).1).
Proof.
  intros Hparse Hs. rewrite (main_parsed w c args Hparse).
  destruct (parse_args_fields c args Hparse) as (_ & Hsuf & _).
  rewrite Hs in Hsuf.
  assert (truthy (suffix args) = false) as Ht by (rewrite Hsuf; reflexivity).
  destruct (parameters_without_suffix args Ht) as (Hi & Hf & Hg).
  destruct (suffix_check_passes w args) as [H1 H2];
    [rewrite Ht; reflexivity|].
  split; [exact H1|]. split; [exact H2|].
  split; [apply common_parameters_empty, Ht|].
  split; [exact Hi|]. split; [intros; exact Hf|]. split; [exact Hg|].
  apply parameter_sets_without_suffix, Ht.
Qed.

Lemma empty_suffix_is_treated_as_absent_witness :
  length (parameter_sets
            (main all_return (suffix_line (Some EmptyString))).1) = 3
  /\ Forall (fun p : gmap string pyval => p !! "suffix" = None)
       (parameter_sets (main all_return (suffix_line (Some EmptyString))).1).
Proof.
  split; [vm_compute; reflexivity|].
  apply (empty_suffix_is_treated_as_absent all_return
           (suffix_line (Some EmptyString)) _ (suffix_line_parsed _) eq_refl).
Defined.

(** ** Deployment names *)

(** The names submitted in a run are the resource group, then the resource
    group followed by [_eg], up to the point the run stops at; a run that
    returns has submitted both. *)
Lemma deployment_names_body w args :
  deployment_names (main_body w args).1
    `prefix_of` [resource_group args; resource_group args +:+ "_eg"]
  /\ ((main_body w args).2 = Returns tt ->
      deployment_names (main_body w args).1
      = [resource_group args; resource_group args +:+ "_eg"]).
Proof.
  run_body w.
  all: cbn [deployment_names omap ev_call option_bind mbind
            BicepDeployment.deployment_name initial_resources
            event_grid_deployment].
  all: split; [eexists; reflexivity|].
  all: try discriminate.
  all: reflexivity.
Qed.

Lemma deployment_names_main w c :
  deployment_names (main w c).1
    `prefix_of` [arg_resource_group c; arg_resource_group c +:+ "_eg"]
  /\ ((main w c).2 = Returns tt ->
      deployment_names (main w c).1
      = [arg_resource_group c; arg_resource_group c +:+ "_eg"]).
Proof.
  unfold main. destruct (parse_args c) as [args|x] eqn:Hparse.
  - destruct (parse_args_fields c args Hparse) as (<- & _ & _).
    apply deployment_names_body.
  - split; [eexists; reflexivity|discriminate].
Qed.

(** C7. Two runs on the same resource group, whatever the collaborators
    answer and whatever the other flags are, submit deployments under the
    same names: each run's list of names is an initial part of
    [[resource_group; resource_group_eg]], and two runs that both return
    have submitted exactly that list. *)
Theorem deployment_names_are_stable (w1 w2 : Collaborators)
    (c1 c2 : CommandLine) :
  arg_resource_group c1 = arg_resource_group c2 ->
  deployment_names (main w1 c1).1
    `prefix_of` [arg_resource_group c1; arg_resource_group c1 +:+ "_eg"]
  /\ deployment_names (main w2 c2).1
       `prefix_of` [arg_resource_group c1; arg_resource_group c1 +:+ "_eg"]
  /\ ((main w1 c1).2 = Returns tt -> (main w2 c2).2 = Returns tt ->
      deployment_names (main w1 c1).1 = deployment_names (main w2 c2).1
      /\ deployment_names (main w1 c1).1
         = [arg_resource_group c1; arg_resource_group c1 +:+ "_eg"]).
Proof.
  intros Hrg.
  destruct (deployment_names_main w1 c1) as [Hp1 Hr1].
  destruct (deployment_names_main w2 c2) as [Hp2 Hr2].
  rewrite <- Hrg in Hp2, Hr2.
  split; [exact Hp1|]. split; [exact Hp2|].
  intros H1 H2. rewrite (Hr1 H1), (Hr2 H2). split; reflexivity.
Qed.

(** The same command line run twice, the second time against collaborators
    that return other outputs. *)
Lemma deployment_names_are_stable_witness :
  deployment_names (main all_return scenario).1
  = deployment_names
      (main (collaborators (<["base_url" := VStr "https://other"]>
                              sample_outputs) (Done tt) (Done tt))
            scenario).1
  /\ deployment_names (main all_return scenario).1 = ["repo1"; "repo1_eg"].
Proof.
  apply (deployment_names_are_stable all_return
           (collaborators (<["base_url" := VStr "https://other"]>
                             sample_outputs) (Done tt) (Done tt))
           scenario scenario eq_refl).
  - vm_compute. reflexivity.
  - vm_compute. reflexivity.
Defined.

(** ** The repository type *)

Lemma in_choices_outside r :
  r <> "distribution" -> r <> "flat" -> in_choices r = false.
Proof.
  intros Hd Hf. unfold in_choices, choices. cbn [existsb].
  apply String.eqb_neq in Hd, Hf. rewrite Hd, Hf. reflexivity.
Qed.

Lemma advisory_body w args :
  (in_choices (repo_type args) = true ->
   event_routing_deployed (main_body w args).1 = true ->
   advisories (main_body w args).1 = [repo_type args])
  /\ (in_choices (repo_type args) = true ->
      ~ invalid_repo_type_raised (main_body w args).2)
  /\ (invalid_repo_type_raised (main_body w args).2 ->
      in_choices (repo_type args) = false
      /\ event_routing_deployed (main_body w args).1 = true
      /\ advisories (main_body w args).1 = []).
Proof.
  run_body w.
  all: split; [intros Hin Hev|split; [intros Hin|intros Hraised]].
  all: try (vm_compute in Hev; discriminate Hev).
  all: try (exfalso; revert Hraised; not_invalid).
  all: try not_invalid.
  all: try match goal with
         | e : repo_type _ = _ |- _ = [repo_type _] => rewrite e
         end.
  all: try (vm_compute; congruence).
  all: try match goal with
         | Hd : repo_type _ <> "distribution", Hf : repo_type _ <> "flat"
           |- _ => pose proof (in_choices_outside _ Hd Hf) as Hout
         end.
  all: try congruence.
  all: split; [assumption|split; vm_compute; reflexivity].
Qed.

(** C8. When the repository type is [flat] or [distribution] and the Event
    Grid deployment has returned, the one advice called is the one of that
    type, and the final [else] branch is not taken; a run of [main_body]
    ends in that branch's [ValueError] only for a type outside
    [choices] (after the Event Grid deployment, with no advice called), and
    no run of [main], which starts with [parse_args], ends in it. *)
Theorem advisory_matches_repo_type (w : Collaborators) (args : Namespace) :
  (in_choices (repo_type args) = true ->
   event_routing_deployed (main_body w args).1 = true ->
   advisories (main_body w args).1 = [repo_type args]
   /\ ~ invalid_repo_type_raised (main_body w args).2)
  /\ (invalid_repo_type_raised (main_body w args).2 ->
      in_choices (repo_type args) = false
      /\ event_routing_deployed (main_body w args).1 = true
      /\ advisories (main_body w args).1 = [])
  /\ (forall c : CommandLine, ~ invalid_repo_type_raised (main w c).2).
Proof.
  destruct (advisory_body w args) as (Ha & Hn & Hr).
  split; [intros Hin Hev; split; [apply Ha|apply Hn]; assumption|].
  split; [exact Hr|].
  intros c. unfold main. destruct (parse_args c) as [a|x] eqn:Hparse.
  - destruct (parse_args_fields c a Hparse) as (_ & _ & Hin).
    destruct (advisory_body w a) as (_ & Hn' & _). apply Hn', Hin.
  - unfold parse_args in Hparse.
    destruct (opt_repo_type c) as [r|]; [|discriminate Hparse].
    destruct (in_choices r); [discriminate Hparse|].
    injection Hparse as <-. not_invalid.
Qed.

(** A [flat] run, and a namespace that [parse_args] cannot produce. *)
Lemma advisory_matches_repo_type_witness :
  advisories
    (main_body all_return
       {| resource_group := "repo1"; location := "eastus"; suffix := None;
          upload_directory := "upload"; repo_type := "flat" |}).1 = ["flat"]
  /\ in_choices "mirror" = false.
Proof.
  split.
  - apply (advisory_matches_repo_type all_return
             {| resource_group := "repo1"; location := "eastus";
                suffix := None; upload_directory := "upload";
                repo_type := "flat" |}).
    + reflexivity.
    + vm_compute. reflexivity.
  - apply (advisory_matches_repo_type all_return
             {| resource_group := "repo1"; location := "eastus";
                suffix := None; upload_directory := "upload";
                repo_type := "mirror" |}).
    exists "mirror". vm_compute. reflexivity.
Defined.

(** C9. A [--repo-type] other than [flat] and [distribution] makes
    [parse_args] exit (status 2), so [main] ends before its first call: no
    resource group is created and no deployment is submitted. *)
Theorem unknown_repo_type_is_rejected (w : Collaborators) (c : CommandLine)
    (r : string) :
  opt_repo_type c = Some r ->
  r <> "flat" -> r <> "distribution" ->
  main w c = ([], Raises (SystemExit 2))
  /\ stages (main w c).1 = []
  /\ deployment_names (main w c).1 = [].
Proof.
  intros Hr Hf Hd.
  assert (main w c = ([], Raises (SystemExit 2))) as ->.
  { unfold main, parse_args. rewrite Hr, (in_choices_outside r Hd Hf).
    reflexivity. }
  split; [|split]; reflexivity.
Qed.

Lemma unknown_repo_type_is_rejected_witness :
  main all_return
    {| arg_resource_group := "repo1"; opt_location := None;
       opt_suffix := None; opt_upload_directory := None;
       opt_repo_type := Some "mirror" |}
  = ([], Raises (SystemExit 2)).
Proof.
  apply (unknown_repo_type_is_rejected all_return
           {| arg_resource_group := "repo1"; opt_location := None;
              opt_suffix := None; opt_upload_directory := None;
              opt_repo_type := Some "mirror" |} "mirror" eq_refl);
    discriminate.
Defined.

(** ** The order of the individual calls *)

Lemma call_order_body w args :
  propagates w ->
  List.filter not_exit (kinds (main_body w args).1) `prefix_of` program_order
  /\ ((main_body w args).2 = Returns tt ->
      kinds (main_body w args).1
      = [KCreateRg; KExtractRequirements; KCreate; KOutputs; KEnter; KDeploy;
         KWaitForEventTrigger; KExit; KCreate; KAdvice]).
Proof.
  intros Hw. run_body w; try swallowed.
  all: split; [eexists; vm_compute; reflexivity|].
  all: try discriminate.
  all: intros _; reflexivity.
Qed.

(** X1. When [__exit__] lets exceptions through, the calls of a run other
    than [__exit__] follow the text of [main] and stop somewhere along it:
    [create_rg], [extract_requirements], [create], [outputs], [__enter__],
    [deploy], [wait_for_event_trigger], [create], advice. A run that
    returns has made all of them, with [__exit__] between
    [wait_for_event_trigger] and the second [create]. *)
Theorem calls_follow_program_order (w : Collaborators) (c : CommandLine) :
  propagates w ->
  List.filter not_exit (kinds (main w c).1) `prefix_of` program_order
  /\ ((main w c).2 = Returns tt ->
      kinds (main w c).1
      = [KCreateRg; KExtractRequirements; KCreate; KOutputs; KEnter; KDeploy;
         KWaitForEventTrigger; KExit; KCreate; KAdvice]).
Proof.
  intros Hw. unfold main. destruct (parse_args c) as [args|x].
  - apply call_order_body, Hw.
  - split; [eexists; reflexivity|discriminate].
Qed.

Lemma calls_follow_program_order_witness :
  List.filter not_exit
    (kinds (main (collaborators sample_outputs (Failed "zip deploy failed")
                    (Done tt)) scenario).1)
  `prefix_of` program_order.
Proof.
  apply (calls_follow_program_order
           (collaborators sample_outputs (Failed "zip deploy failed")
              (Done tt)) scenario (collaborators_propagate _ _ _)).
Defined.

(** ** How a run ends *)

Lemma outcome_body w args :
  propagates w ->
  in_choices (repo_type args) = true ->
  (forall d, last_failure (main_body w args).1 = Some d ->
             (main_body w args).2 = Raises (CollaboratorError d))
  /\ (last_failure (main_body w args).1 = None ->
      (main_body w args).2 = Returns tt
      \/ (main_body w args).2 = Raises suffix_too_long
      \/ exists k, k ∈ expected_outputs
                   /\ (main_body w args).2 = Raises (KeyError k)).
Proof.
  intros Hw Hin. run_body w; try swallowed.
  all: try match goal with
         | Hd : repo_type _ <> "distribution", Hf : repo_type _ <> "flat"
           |- _ => rewrite (in_choices_outside _ Hd Hf) in Hin;
                   discriminate Hin
         end.
  all: repeat match goal with
         | u : unit |- _ => destruct u
         end.
  all: split; [intros d Hd|intros Hn].
  all: try (vm_compute in Hd; congruence).
  all: try (vm_compute in Hn; discriminate Hn).
  all: try (left; reflexivity).
  all: try (right; left; reflexivity).
  all: right; right; eexists; split; [|reflexivity].
  all: unfold expected_outputs; set_solver.
Qed.

(** X2. When [__exit__] lets exceptions through, a run of [main] on a
    command line that [parse_args] accepts ends in exactly one of these
    ways: if some call raised, in the exception of the last call that
    raised; otherwise it returns, or raises the suffix [ValueError], or
    raises [KeyError] on one of the five keys read from the outputs. *)
Theorem main_outcomes (w : Collaborators) (c : CommandLine)
    (args : Namespace) :
  propagates w ->
  parse_args c = Returns args ->
  (forall d, last_failure (main w c).1 = Some d ->
             (main w c).2 = Raises (CollaboratorError d))
  /\ (last_failure (main w c).1 = None ->
      (main w c).2 = Returns tt
      \/ (main w c).2 = Raises suffix_too_long
      \/ exists k, k ∈ expected_outputs
                   /\ (main w c).2 = Raises (KeyError k)).
Proof.
  intros Hw Hparse. rewrite (main_parsed w c args Hparse).
  destruct (parse_args_fields c args Hparse) as (_ & _ & Hin).
  exact (outcome_body w args Hw Hin).
Qed.

(** A run in which [wait_for_event_trigger] times out ends in that
    exception. *)
Lemma main_outcomes_witness :
  (main (collaborators sample_outputs (Done tt) (Failed "trigger timeout"))
        scenario).2 = Raises (CollaboratorError "trigger timeout").
Proof.
  apply (main_outcomes
           (collaborators sample_outputs (Done tt) (Failed "trigger timeout"))
           scenario _ (collaborators_propagate _ _ _) scenario_parsed).
  vm_compute. reflexivity.
Defined.

(** ** The [with] block, call by call *)

(** X3. In every run the calls on the bundle have one of four shapes:
    [__enter__] raises and nothing else is called; or [__enter__] returns
    [cm] and [deploy] is called on [cm] and raises, or [deploy] returns and
    [wait_for_event_trigger] is called on [cm] and raises, or both return.
    In the last three [__exit__] is then called on the bundle [main] built
    (not on [cm]) with the exception the body raised, or with none when
    both returned; [wait_for_event_trigger] is not called when [deploy]
    raised. *)
Theorem with_block_protocol (w : Collaborators) (c : CommandLine) :
  with_block_shape w (main w c).1.
Proof.
  unfold main. destruct (parse_args c) as [args|x]; [|exact I].
  run_body w.
  all: unfold with_block_shape, bundle_events.
  all: cbn [List.filter is_bundle_call ev_call].
  all: try exact I.
  all: repeat split; assumption.
Qed.

(** X4. [main] depends on [__exit__] returning a false value: with an
    [__exit__] that returns a true one, a run in which [deploy] or
    [wait_for_event_trigger] raised goes on and submits the Event Grid
    deployment, and the trace no longer stops at its first failed call. *)
Theorem swallowed_failure_does_not_halt (w : Collaborators)
    (c : CommandLine) :
  swallows w ->
  body_failed (main w c).1 = true ->
  event_routing_submitted (main w c).1 = true
  /\ halts_on_failure (main w c).1 = false.
Proof.
  intros Hw. unfold main. destruct (parse_args c) as [args|x];
    [|discriminate].
  run_body w.
  all: try match goal with
         | Hx : FuncAppBundle_exit _ ?f (Some ?e) = _ |- _ =>
             rewrite (Hw f e) in Hx; try discriminate Hx
         end.
  all: intros Hb; try (vm_compute in Hb; discriminate Hb).
  all: split; vm_compute; reflexivity.
Qed.

Lemma swallowed_failure_does_not_halt_witness :
  body_failed (main swallowing scenario).1 = true
  /\ (main swallowing scenario).2 = Returns tt
  /\ event_routing_submitted (main swallowing scenario).1 = true.
Proof.
  split; [vm_compute; reflexivity|]. split; [vm_compute; reflexivity|].
  apply (swallowed_failure_does_not_halt swallowing scenario).
  - intros f e. reflexivity.
  - vm_compute. reflexivity.
Defined.

(** ** Where the arguments of the calls come from *)

(** X5. Every call of a run is about the resource group named on the
    command line: it is the one [create_rg] creates, the one both
    deployments are submitted to and read from, and the one of the bundle
    passed to [__enter__] and [__exit__]. *)
Theorem every_call_targets_the_resource_group (w : Collaborators)
    (c : CommandLine) :
  Forall (targets (arg_resource_group c)) (main w c).1.
Proof.
  unfold main. destruct (parse_args c) as [args|x] eqn:Hparse;
    [|constructor].
  destruct (parse_args_fields c args Hparse) as (<- & _ & _).
  run_body w.
  all: repeat (apply Forall_cons_2); try apply Forall_nil_2.
  all: try exact I.
  all: reflexivity.
Qed.

(** X6. In a run whose [outputs()] returned [o], the bundle passed to
    [__enter__] and [__exit__] has the function app name, the storage
    account and the Python container of [o] and the function app
    parameters, and the advice is called with the upload directory and the
    package container, storage account, function app name and base URL of
    [o], in this order. *)
Theorem calls_are_fed_from_the_outputs (w : Collaborators) (c : CommandLine)
    (args : Namespace) (o : gmap string pyval) :
  parse_args c = Returns args ->
  BicepDeployment_outputs w (initial_resources args) = Done o ->
  Forall (fed_from args o) (main w c).1.
Proof.
  intros Hparse Ho. rewrite (main_parsed w c args Hparse).
  run_body w.
  all: try match goal with
         | Hx : BicepDeployment_outputs _ _ = Done ?o' |- _ =>
             assert (o' = o) as -> by congruence
         end.
  all: repeat (apply Forall_cons_2); try apply Forall_nil_2.
  all: try exact I.
  all: unfold fed_from; cbn [ev_call funcapp FuncAppBundle.name
         FuncAppBundle.storage_account FuncAppBundle.python_container
         FuncAppBundle.parameters].
  all: repeat split; assumption.
Qed.

Lemma calls_are_fed_from_the_outputs_witness :
  Forall (fed_from (suffix_namespace None) sample_outputs)
    (main all_return (suffix_line None)).1.
Proof.
  apply (calls_are_fed_from_the_outputs all_return (suffix_line None)
           (suffix_namespace None) sample_outputs
           (suffix_line_parsed None) eq_refl).
Defined.

Lemma parsed_defaults c args :
  parse_args c = Returns args ->
  resource_group args = arg_resource_group c
  /\ location args = default "eastus" (opt_location c)
  /\ upload_directory args = default "upload" (opt_upload_directory c)
  /\ repo_type args = default "distribution" (opt_repo_type c).
Proof.
  unfold parse_args. destruct (opt_repo_type c) as [r|].
  - destruct (in_choices r); [|discriminate].
    intros [= <-]. cbn. auto.
  - intros [= <-]. cbn. auto.
Qed.

Lemma fixed_parameters args :
  initial_parameters args !! "use_shared_keys" = Some (VBool false)
  /\ initial_parameters args !! "repo_type" = Some (VStr (repo_type args))
  /\ initial_parameters args !! "upload_directory"
     = Some (VStr (upload_directory args))
  /\ funcapp_parameters args !! "use_shared_keys" = None
  /\ funcapp_parameters args !! "repo_type" = Some (VStr (repo_type args))
  /\ funcapp_parameters args !! "upload_directory"
     = Some (VStr (upload_directory args)).
Proof.
  unfold initial_parameters, funcapp_parameters, update, common_parameters.
  destruct (truthy (suffix args)).
  - repeat split; (rewrite lookup_union_r by reflexivity); reflexivity.
  - repeat split; (rewrite lookup_union_r by reflexivity); reflexivity.
Qed.

(** X7. The flags reach the calls with the defaults of the parser filled
    in: [create_rg] gets the resource group and the location (default
    [eastus]); the initial deployment gets [use_shared_keys=False], the
    repository type (default [distribution]) and the upload directory
    (default [upload]), whatever the suffix is; the bundle gets the same
    two and no [use_shared_keys]; and the advice called is the one of the
    repository type, with the upload directory. *)
Theorem flags_reach_the_calls (w : Collaborators) (c : CommandLine) :
  Forall (configured c) (main w c).1.
Proof.
  unfold main. destruct (parse_args c) as [args|x] eqn:Hparse;
    [|constructor].
  destruct (parsed_defaults c args Hparse) as (Hrg & Hloc & Hup & Hrt).
  destruct (fixed_parameters args) as (I1 & I2 & I3 & F1 & F2 & F3).
  rewrite Hrt in I2, F2. rewrite Hup in I3, F3.
  run_body w.
  all: repeat (apply Forall_cons_2); try apply Forall_nil_2.
  all: unfold configured;
    cbn [ev_call initial_resources event_grid_deployment funcapp
         BicepDeployment.template_file BicepDeployment.parameters
         FuncAppBundle.parameters].
  all: try exact I.
  all: try reflexivity.
  all: try (intros; discriminate).
  all: try (split; [|split]; assumption).
  all: try (intros _; split; [|split]; assumption).
  all: split; congruence.
Qed.

(** X8. [main] reads five keys of the outputs and nothing else: two
    dictionaries of outputs that agree on [base_url], [function_app_name],
    [package_container], [python_container] and [storage_account] give the
    same run, call for call, whatever else they hold. *)
Theorem only_the_expected_outputs_matter (w : Collaborators)
    (c : CommandLine) (o1 o2 : gmap string pyval) :
  (forall k, k ∈ expected_outputs -> o1 !! k = o2 !! k) ->
  main (with_outputs w o1) c = main (with_outputs w o2) c.
Proof.
  intros Hk. unfold main. destruct (parse_args c) as [args|x];
    [|reflexivity].
  assert (o1 !! "base_url" = o2 !! "base_url") as H1
    by (apply Hk; unfold expected_outputs; set_solver).
  assert (o1 !! "function_app_name" = o2 !! "function_app_name") as H2
    by (apply Hk; unfold expected_outputs; set_solver).
  assert (o1 !! "package_container" = o2 !! "package_container") as H3
    by (apply Hk; unfold expected_outputs; set_solver).
  assert (o1 !! "python_container" = o2 !! "python_container") as H4
    by (apply Hk; unfold expected_outputs; set_solver).
  assert (o1 !! "storage_account" = o2 !! "storage_account") as H5
    by (apply Hk; unfold expected_outputs; set_solver).
  unfold main_body, with_stmt, getitem.
  cbn [with_outputs create_rg extract_requirements BicepDeployment_create
       BicepDeployment_outputs FuncAppBundle_enter FuncAppBundle_deploy
       FuncAppBundle_wait_for_event_trigger FuncAppBundle_exit
       advice_distribution_repo advice_flat_repo bind invoke app].
  rewrite H1, H2, H3, H4, H5. reflexivity.
Qed.

Lemma only_the_expected_outputs_matter_witness :
  main (with_outputs all_return sample_outputs) scenario
  = main (with_outputs all_return outputs_with_more) scenario.
Proof.
  apply (only_the_expected_outputs_matter all_return scenario
           sample_outputs outputs_with_more).
  intros k Hk. unfold expected_outputs in Hk.
  repeat (apply elem_of_cons in Hk as [->|Hk]; [reflexivity|]).
  apply elem_of_nil in Hk. destruct Hk.
Defined.

(** ** The three parameter dictionaries *)

(** X9. The dictionaries get smaller from stage to stage: the parameters of
    the Event Grid deployment are part of those of the bundle, which are
    those of the initial deployment without [use_shared_keys]; so a key
    has the same value in every dictionary that holds it. *)
Theorem parameters_shrink (args : Namespace)
    (function_app_name storage_account python_container : pyval) :
  BicepDeployment.parameters (event_grid_deployment args)
    ⊆ FuncAppBundle.parameters
        (funcapp args function_app_name storage_account python_container)
  /\ FuncAppBundle.parameters
       (funcapp args function_app_name storage_account python_container)
     = delete "use_shared_keys"
         (BicepDeployment.parameters (initial_resources args))
  /\ FuncAppBundle.parameters
       (funcapp args function_app_name storage_account python_container)
     ⊆ BicepDeployment.parameters (initial_resources args).
Proof.
  cbn [event_grid_deployment funcapp initial_resources
       BicepDeployment.parameters FuncAppBundle.parameters].
  assert (funcapp_parameters args
          = delete "use_shared_keys" (initial_parameters args)) as Hdel.
  { unfold funcapp_parameters, initial_parameters, update.
    rewrite delete_union, delete_insert_eq.
    rewrite (delete_id (common_parameters args)); [reflexivity|].
    unfold common_parameters. destruct (truthy (suffix args)); reflexivity. }
  split; [apply map_union_subseteq_l|].
  split; [exact Hdel|].
  rewrite Hdel. apply delete_subseteq.
Qed.

(** ** Runs that go through *)

(** X10. With collaborators that all return and outputs that hold the five
    keys, every command line that [parse_args] accepts and whose suffix is
    at most 14 characters (code points) long runs to the end: [main] returns, has made
    its ten calls, and none of them raised. *)
Theorem accepted_command_lines_run_to_the_end (w : Collaborators)
    (c : CommandLine) (args : Namespace) (o : gmap string pyval) :
  returning w o ->
  (forall k, k ∈ expected_outputs -> is_Some (o !! k)) ->
  parse_args c = Returns args ->
  len (suffix args) <= 14 ->
  (main w c).2 = Returns tt
  /\ kinds (main w c).1
     = [KCreateRg; KExtractRequirements; KCreate; KOutputs; KEnter; KDeploy;
        KWaitForEventTrigger; KExit; KCreate; KAdvice]
  /\ last_failure (main w c).1 = None.
Proof.
  intros [Hrg Hreq Hcreate Hout Henter Hdeploy Hwait Hexit Hadvd Hadvf].
  intros Hkeys Hparse Hlen. rewrite (main_parsed w c args Hparse).
  destruct (parse_args_fields c args Hparse) as (_ & _ & Hin).
  assert (Nat.ltb 14 (len (suffix args)) = false) as Hlt
    by (apply Nat.ltb_ge; exact Hlen).
  run_body w.
  all: try match goal with
         | H : _ && _ = true |- _ =>
             rewrite Hlt, andb_false_r in H; discriminate H
         end.
  all: try match goal with
         | H : create_rg _ _ _ = Failed _ |- _ =>
             rewrite Hrg in H; discriminate H
         | H : extract_requirements _ _ = Failed _ |- _ =>
             rewrite Hreq in H; discriminate H
         | H : BicepDeployment_create _ _ = Failed _ |- _ =>
             rewrite Hcreate in H; discriminate H
         | H : BicepDeployment_outputs _ _ = Failed _ |- _ =>
             rewrite Hout in H; discriminate H
         | H : FuncAppBundle_enter _ _ = Failed _ |- _ =>
             rewrite Henter in H; discriminate H
         | H : FuncAppBundle_deploy _ _ = Failed _ |- _ =>
             rewrite Hdeploy in H; discriminate H
         | H : FuncAppBundle_wait_for_event_trigger _ _ = Failed _ |- _ =>
             rewrite Hwait in H; discriminate H
         | H : FuncAppBundle_exit _ ?f None = Failed _ |- _ =>
             destruct (Hexit f) as [? Hx]; rewrite Hx in H; discriminate H
         | H : advice_distribution_repo _ _ _ _ _ _ = Failed _ |- _ =>
             rewrite Hadvd in H; discriminate H
         | H : advice_flat_repo _ _ _ _ _ _ = Failed _ |- _ =>
             rewrite Hadvf in H; discriminate H
         end.
  all: try match goal with
         | Hd : repo_type _ <> "distribution", Hf : repo_type _ <> "flat"
           |- _ => rewrite (in_choices_outside _ Hd Hf) in Hin;
                   discriminate Hin
         end.
  all: try match goal with
         | Hx : BicepDeployment_outputs _ _ = Done ?o', Hl : ?o' !! ?k = None
           |- _ =>
             assert (o' = o) as -> by (rewrite Hout in Hx; congruence);
             destruct (Hkeys k) as [? Hs];
             [apply list_elem_of_In; cbn; tauto|congruence]
         end.
  all: repeat match goal with
         | u : unit |- _ => destruct u
         end.
  all: split; [reflexivity|split; vm_compute; reflexivity].
Qed.

(** The five characters of [日本語日本] take 15 bytes. *)
Lemma accepted_command_lines_run_to_the_end_witness :
  (main all_return (suffix_line (Some "日本語日本"))).2 = Returns tt
  /\ (main all_return (suffix_line (Some "abcdefghijklmn"))).2 = Returns tt.
Proof.
  split.
  - apply (accepted_command_lines_run_to_the_end all_return
             (suffix_line (Some "日本語日本"))
             (suffix_namespace (Some "日本語日本")) sample_outputs
             all_return_returning).
    + intros k Hk. unfold expected_outputs in Hk.
      repeat (apply elem_of_cons in Hk as [->|Hk]; [eexists; reflexivity|]).
      apply elem_of_nil in Hk. destruct Hk.
    + reflexivity.
    + vm_compute. lia.
  - apply (accepted_command_lines_run_to_the_end all_return
             (suffix_line (Some "abcdefghijklmn"))
             (suffix_namespace (Some "abcdefghijklmn")) sample_outputs
             all_return_returning).
    + intros k Hk. unfold expected_outputs in Hk.
      repeat (apply elem_of_cons in Hk as [->|Hk]; [eexists; reflexivity|]).
      apply elem_of_nil in Hk. destruct Hk.
    + reflexivity.
    + vm_compute. lia.
Defined.
